(** * pythonanywhere_core: the scheduled-task and website API clients

    A shallow embedding of [pythonanywhere_core/schedule.py] and
    [pythonanywhere_core/website.py].  Every method is a computation in a
    small state-and-exception monad: the state is the list of HTTP requests
    issued so far together with the console output, an exception leaves the
    state as it was when it was raised. *)

From Stdlib Require Import ZArith String List Bool Lia DecimalString.
From Stdlib Require DecimalPos DecimalZ.
Import ListNotations.

Local Open Scope string_scope.
Local Open Scope Z_scope.

(** ** Python values *)

(** The values the methods receive, send as JSON payloads and return:
    [None], booleans, integers, strings, lists and dicts (in insertion
    order).  A decoded JSON [null] is [PyNone]. *)
#[local] Unset Elimination Schemes.
Inductive PyValue : Type :=
| PyNone : PyValue
| PyBool : bool -> PyValue
| PyInt : Z -> PyValue
| PyStr : string -> PyValue
| PyList : list PyValue -> PyValue
| PyDict : list (string * PyValue) -> PyValue.
#[local] Set Elimination Schemes.

(** [str(n)] for a Python [int], as an f-string formats it. *)
Definition str_int (n : Z) : string := NilZero.string_of_int (Z.to_int n).

Definition newline : string := String (Ascii.ascii_of_nat 10) EmptyString.

(** ** Requests, responses, exceptions *)

(** The arguments of one [call_api(url, method, json=...)] call. *)
Record Request : Type := mkRequest {
  req_url : string;
  req_method : string;
  req_json : option PyValue
}.

(** Modelled from the spec: the response object [call_api] returns
    (pythonanywhere_core/base.py is not part of the sources).  It exposes
    the status code, the boolean [ok] flag, the raw text, and the body as
    [json()] decodes it; [json_body] is [None] when decoding raises. *)
Record Response : Type := mkResponse {
  status_code : Z;
  ok : bool;
  text : string;
  json_body : option PyValue
}.

(** [str(response)], the way an f-string shows a response object. *)
Definition repr_Response (r : Response) : string :=
  "<Response [" ++ str_int (status_code r) ++ "]>".

Inductive exn : Type :=
| SanityException : string -> exn
| PythonAnywhereApiException : string -> exn
| JSONDecodeError : exn
| TransportError : string -> exn.

(** ** The execution environment and the monad *)

(** What the methods read from outside: the process environment
    [os.environ], the remote server (its answer to a request may depend on
    the requests it has already received, and may be a lower-level
    exception of the HTTP layer), and the [snakesay] formatter. *)
Record Env : Type := mkEnv {
  environ : string -> option string;
  server : list Request -> Request -> exn + Response;
  snakesay : string -> string
}.

Record State : Type := mkState {
  calls : list Request;
  stdout : list string
}.

Definition M (A : Type) : Type := Env -> State -> (exn + A) * State.

Definition ret {A : Type} (a : A) : M A := fun _ st => (inr a, st).

Definition raise {A : Type} (e : exn) : M A := fun _ st => (inl e, st).

Definition bind {A B : Type} (m : M A) (k : A -> M B) : M B :=
  fun w st =>
    match m w st with
    | (inl e, st') => (inl e, st')
    | (inr a, st') => k a w st'
    end.

Notation "x <- m ;; k" := (bind m (fun x => k))
  (at level 61, m at next level, right associativity).
Notation "m ;;; k" := (bind m (fun _ => k))
  (at level 61, right associativity).

Definition print (s : string) : M unit :=
  fun _ st => (inr tt, {| calls := calls st; stdout := stdout st ++ [s] |}).

Definition os_environ_get (name : string) : M (option string) :=
  fun w st => (inr (environ w name), st).

Definition call_snakesay (s : string) : M string :=
  fun w st => (inr (snakesay w s), st).

(** Modelled from the spec: [call_api] of pythonanywhere_core/base.py, the
    API invoker.  One network round trip: the request is sent, and the
    response comes back as it is, without any look at its status code; an
    exception of the HTTP layer propagates. *)
Definition call_api (url method : string) (json : option PyValue) : M Response :=
  fun w st =>
    let req := mkRequest url method json in
    (server w (calls st) req,
     {| calls := calls st ++ [req]; stdout := stdout st |}).

(** [response.json()]. *)
Definition json (r : Response) : M PyValue :=
  match json_body r with
  | Some v => ret v
  | None => raise JSONDecodeError
  end.

(** Python's truth value of [os.environ.get(...)]: [None] and the empty
    string are false. *)
Definition truthy (token : option string) : bool :=
  match token with
  | None => false
  | Some EmptyString => false
  | Some (String _ _) => true
  end.

(** ** schedule.py *)

Module Schedule.

(** [base_url] is the class attribute computed by [get_api_endpoint]. *)
Record t : Type := mk { base_url : string }.

Definition create_failed (result : Response) : string :=
  "POST to set new task via API failed, got " ++ repr_Response result
    ++ ": " ++ text result.

Definition create (self : t) (params : PyValue) : M PyValue :=
  result <- call_api (base_url self) "POST" (Some params) ;;
  if status_code result =? 201 then json result
  else if negb (ok result) then
    raise (PythonAnywhereApiException (create_failed result))
  else ret PyNone.

Definition delete_failed (task_id : Z) (result : Response) : string :=
  "DELETE via API on task " ++ str_int task_id ++ " failed, got "
    ++ repr_Response result ++ ": " ++ text result.

Definition delete (self : t) (task_id : Z) : M PyValue :=
  result <- call_api (base_url self ++ str_int task_id ++ "/") "DELETE" None ;;
  if status_code result =? 204 then ret (PyBool true)
  else if negb (ok result) then
    raise (PythonAnywhereApiException (delete_failed task_id result))
  else ret PyNone.

Definition get_list (self : t) : M PyValue :=
  result <- call_api (base_url self) "GET" None ;;
  json result.

Definition get_specs_failed (task_id : Z) (result : Response) : string :=
  "Could not get task with id " ++ str_int task_id ++ ". Got result "
    ++ repr_Response result ++ ": " ++ text result.

Definition get_specs (self : t) (task_id : Z) : M PyValue :=
  result <- call_api (base_url self ++ str_int task_id ++ "/") "GET" None ;;
  if status_code result =? 200 then json result
  else raise (PythonAnywhereApiException (get_specs_failed task_id result)).

Definition update_failed (task_id : Z) (result : Response) : string :=
  "Could not update task " ++ str_int task_id ++ ". Got "
    ++ repr_Response result ++ ": " ++ text result.

Definition update (self : t) (task_id : Z) (params : PyValue) : M PyValue :=
  result <- call_api (base_url self ++ str_int task_id ++ "/") "PATCH"
              (Some params) ;;
  if status_code result =? 200 then json result
  else raise (PythonAnywhereApiException (update_failed task_id result)).

End Schedule.

(** ** website.py *)

Module Website.

Record t : Type := mk {
  websites_base_url : string;
  domains_base_url : string
}.

(** The dedented text of the missing-token message. *)
Definition no_token_message : string :=
  newline ++ "Could not find your API token." ++ newline
    ++ "You may need to create it on the Accounts page?" ++ newline
    ++ "You will also need to close this console and open a new one once you've done that."
    ++ newline.

Definition conflict_message (domain_name : string) : string :=
  "You already have a webapp for " ++ domain_name ++ "." ++ newline
    ++ newline ++ "Use the --nuke option if you want to replace it.".

Definition sanity_check (self : t) (domain_name : string) (nuke : bool)
  : M PyValue :=
  banner <- call_snakesay "Running API sanity checks" ;;
  print banner ;;;
  token <- os_environ_get "API_TOKEN" ;;
  if negb (truthy token) then raise (SanityException no_token_message)
  else if nuke then ret PyNone
  else
    response <- call_api (websites_base_url self ++ domain_name ++ "/")
                  "get" None ;;
    if status_code response =? 200 then
      raise (SanityException (conflict_message domain_name))
    else ret PyNone.

Definition create_payload (domain_name command : string) : PyValue :=
  PyDict [("domain_name", PyStr domain_name);
          ("enabled", PyBool true);
          ("webapp", PyDict [("command", PyStr command)])].

Definition create (self : t) (domain_name command : string) (nuke : bool)
  : M PyValue :=
  sanity_check self domain_name nuke ;;;
  response <- call_api (websites_base_url self) "post"
                (Some (create_payload domain_name command)) ;;
  json response.

Definition get (self : t) (domain_name : string) : M PyValue :=
  response <- call_api (websites_base_url self ++ domain_name ++ "/")
                "get" None ;;
  json response.

Definition list (self : t) : M PyValue :=
  response <- call_api (websites_base_url self) "get" None ;;
  json response.

Definition reload (self : t) (domain_name : string) : M PyValue :=
  response <- call_api
                (websites_base_url self ++ domain_name ++ "/reload/")
                "post" None ;;
  json response.

Definition auto_ssl (self : t) (domain_name : string) : M PyValue :=
  response <- call_api (domains_base_url self ++ domain_name ++ "/ssl/")
                "post"
                (Some (PyDict [("cert_type", PyStr "letsencrypt-auto-renew")])) ;;
  json response.

Definition get_ssl_info_failed (response : Response) : string :=
  "GET SSL details via API failed, got " ++ repr_Response response
    ++ ":" ++ text response.

Definition get_ssl_info (self : t) (domain_name : string) : M PyValue :=
  response <- call_api (domains_base_url self ++ domain_name ++ "/ssl/")
                "get" None ;;
  if negb (ok response) then
    raise (PythonAnywhereApiException (get_ssl_info_failed response))
  else json response.

Definition delete (self : t) (domain_name : string) : M PyValue :=
  call_api (websites_base_url self ++ domain_name ++ "/") "delete" None ;;;
  ret (PyDict []).

End Website.

(** ** Observing a run *)

(** What a method call ends with: the value returned or the exception
    raised. *)
Definition outcome {A : Type} (m : M A) (w : Env) (st : State) : exn + A :=
  fst (m w st).

(** The requests on the wire once the method call has ended, oldest
    first. *)
Definition issued {A : Type} (m : M A) (w : Env) (st : State) : list Request :=
  calls (snd (m w st)).

(** The state once one more request has gone out. *)
Definition sent (st : State) (req : Request) : State :=
  {| calls := calls st ++ [req]; stdout := stdout st |}.

(** The state once one more line has been printed. *)
Definition printed (st : State) (line : string) : State :=
  {| calls := calls st; stdout := stdout st ++ [line] |}.

(** The outcome of [r.json()] as a plain value. *)
Definition decoded (r : Response) : exn + PyValue :=
  match json_body r with
  | Some v => inr v
  | None => inl JSONDecodeError
  end.

(** A method passes the response through: it ends as [r.json()] does, and
    so never with an API exception of its own. *)
Definition passes_through (m : M PyValue) (w : Env) (st : State) (r : Response)
  : Prop :=
  outcome m w st = decoded r
  /\ forall msg, outcome m w st <> inl (PythonAnywhereApiException msg).

Definition is_2xx (status : Z) : bool := (200 <=? status) && (status <? 300).

(** A response whose [ok] flag agrees with its status code on the success
    range: every 2xx status is [ok]. *)
Definition ok_consistent (r : Response) : bool :=
  implb (is_2xx (status_code r)) (ok r).

(** Every public method of the two classes, applied to its arguments. *)
Inductive Invocation : Type :=
| ScheduleCreate (self : Schedule.t) (params : PyValue)
| ScheduleDelete (self : Schedule.t) (task_id : Z)
| ScheduleGetList (self : Schedule.t)
| ScheduleGetSpecs (self : Schedule.t) (task_id : Z)
| ScheduleUpdate (self : Schedule.t) (task_id : Z) (params : PyValue)
| WebsiteSanityCheck (self : Website.t) (domain_name : string) (nuke : bool)
| WebsiteCreate (self : Website.t) (domain_name command : string) (nuke : bool)
| WebsiteGet (self : Website.t) (domain_name : string)
| WebsiteList (self : Website.t)
| WebsiteReload (self : Website.t) (domain_name : string)
| WebsiteAutoSsl (self : Website.t) (domain_name : string)
| WebsiteGetSslInfo (self : Website.t) (domain_name : string)
| WebsiteDelete (self : Website.t) (domain_name : string).

Definition invoke (i : Invocation) : M PyValue :=
  match i with
  | ScheduleCreate self params => Schedule.create self params
  | ScheduleDelete self task_id => Schedule.delete self task_id
  | ScheduleGetList self => Schedule.get_list self
  | ScheduleGetSpecs self task_id => Schedule.get_specs self task_id
  | ScheduleUpdate self task_id params => Schedule.update self task_id params
  | WebsiteSanityCheck self d nuke => Website.sanity_check self d nuke
  | WebsiteCreate self d c nuke => Website.create self d c nuke
  | WebsiteGet self d => Website.get self d
  | WebsiteList self => Website.list self
  | WebsiteReload self d => Website.reload self d
  | WebsiteAutoSsl self d => Website.auto_ssl self d
  | WebsiteGetSslInfo self d => Website.get_ssl_info self d
  | WebsiteDelete self d => Website.delete self d
  end.

(** The requests the methods build. *)
Definition probe_request (self : Website.t) (domain_name : string) : Request :=
  mkRequest (Website.websites_base_url self ++ domain_name ++ "/") "get" None.

Definition post_request (self : Website.t) (domain_name command : string)
  : Request :=
  mkRequest (Website.websites_base_url self) "post"
    (Some (Website.create_payload domain_name command)).

Definition task_url (self : Schedule.t) (task_id : Z) : string :=
  Schedule.base_url self ++ str_int task_id ++ "/".

(** ** Sample data *)

Definition tasks : Schedule.t :=
  Schedule.mk "https://www.pythonanywhere.com/api/v0/user/alice/schedule/".

Definition sites : Website.t :=
  Website.mk "https://www.pythonanywhere.com/api/v1/user/alice/websites/"
             "https://www.pythonanywhere.com/api/v1/user/alice/domains/".

(** An environment with the given [API_TOKEN] whose server gives the same
    answer to every request. *)
Definition fixed_env (token : option string) (answer : exn + Response) : Env :=
  {| environ := fun name => if String.eqb name "API_TOKEN" then token else None;
     server := fun _ _ => answer;
     snakesay := fun s => s |}.

(** An environment whose server has the website already: the item endpoint
    answers [found], everything else [other]. *)
Definition probing_env (token : option string) (found other : Response) : Env :=
  {| environ := fun name => if String.eqb name "API_TOKEN" then token else None;
     server := fun _ req =>
       if String.eqb (req_method req) "get" then inr found else inr other;
     snakesay := fun s => s |}.

Definition fresh : State := {| calls := []; stdout := [] |}.

Definition hourly_task : PyValue :=
  PyDict [("command", PyStr "echo hi"); ("enabled", PyBool true);
          ("interval", PyStr "hourly"); ("minute", PyInt 5)].

Definition created_task : PyValue :=
  PyDict [("id", PyInt 42); ("command", PyStr "echo hi");
          ("enabled", PyBool true); ("interval", PyStr "hourly");
          ("minute", PyInt 5)].

Definition resp_201 : Response := mkResponse 201 true "{...}" (Some created_task).
Definition resp_200 : Response := mkResponse 200 true "{...}" (Some created_task).
Definition resp_202 : Response := mkResponse 202 true "" None.
Definition resp_204 : Response := mkResponse 204 true "" None.
(** A response outside the 2xx range that the HTTP layer still flags [ok]. *)
Definition resp_304 : Response := mkResponse 304 true "" None.
Definition resp_400 : Response :=
  mkResponse 400 false "hour is required" (Some (PyDict [("detail", PyStr "hour is required")])).
Definition resp_404 : Response := mkResponse 404 false "<html>Not Found</html>" None.
Definition resp_500 : Response := mkResponse 500 false "Server Error" None.

(** ** Tables over the public methods *)

Definition item_url (self : Website.t) (domain_name : string) : string :=
  Website.websites_base_url self ++ domain_name ++ "/".

Definition ssl_url (self : Website.t) (domain_name : string) : string :=
  Website.domains_base_url self ++ domain_name ++ "/ssl/".

Definition auto_ssl_request (self : Website.t) (domain_name : string) : Request :=
  mkRequest (ssl_url self domain_name) "post"
    (Some (PyDict [("cert_type", PyStr "letsencrypt-auto-renew")])).

(** The request of each method that makes a single [call_api] call;
    [sanity_check] and [create] are the two methods that do more than
    that. *)
Definition single_request (i : Invocation) : option Request :=
  match i with
  | ScheduleCreate self params =>
      Some (mkRequest (Schedule.base_url self) "POST" (Some params))
  | ScheduleDelete self task_id =>
      Some (mkRequest (task_url self task_id) "DELETE" None)
  | ScheduleGetList self =>
      Some (mkRequest (Schedule.base_url self) "GET" None)
  | ScheduleGetSpecs self task_id =>
      Some (mkRequest (task_url self task_id) "GET" None)
  | ScheduleUpdate self task_id params =>
      Some (mkRequest (task_url self task_id) "PATCH" (Some params))
  | WebsiteSanityCheck _ _ _ => None
  | WebsiteCreate _ _ _ _ => None
  | WebsiteGet self d => Some (mkRequest (item_url self d) "get" None)
  | WebsiteList self =>
      Some (mkRequest (Website.websites_base_url self) "get" None)
  | WebsiteReload self d =>
      Some (mkRequest (Website.websites_base_url self ++ d ++ "/reload/")
              "post" None)
  | WebsiteAutoSsl self d => Some (auto_ssl_request self d)
  | WebsiteGetSslInfo self d => Some (mkRequest (ssl_url self d) "get" None)
  | WebsiteDelete self d => Some (mkRequest (item_url self d) "delete" None)
  end.

(** The methods that go through [sanity_check]. *)
Definition runs_sanity_check (i : Invocation) : bool :=
  match i with
  | WebsiteSanityCheck _ _ _ | WebsiteCreate _ _ _ _ => true
  | _ => false
  end.

(** The methods with a [raise PythonAnywhereApiException] of their own. *)
Definition checks_response (i : Invocation) : bool :=
  match i with
  | ScheduleCreate _ _ | ScheduleDelete _ _ | ScheduleGetSpecs _ _
  | ScheduleUpdate _ _ _ | WebsiteGetSslInfo _ _ => true
  | _ => false
  end.

(** The line [sanity_check] prints. *)
Definition banner (w : Env) : string := snakesay w "Running API sanity checks".

(** A server that answers every request with a response: the HTTP layer
    raises nothing. *)
Definition always_answers (w : Env) : Prop :=
  forall history req, exists r, server w history req = inr r.

(** The requests on the wire when [create] reaches its POST. *)
Definition before_post (self : Website.t) (domain_name : string) (nuke : bool)
  (st : State) : list Request :=
  if nuke then calls st else (calls st ++ [probe_request self domain_name])%list.

Definition refused : exn := TransportError "Connection refused".

(** ** Sample runs *)

Example create_201 :
  Schedule.create tasks hourly_task (fixed_env (Some "tok") (inr resp_201)) fresh
  = (inr created_task,
     {| calls := [mkRequest (Schedule.base_url tasks) "POST" (Some hourly_task)];
        stdout := [] |}).
Proof. reflexivity. Qed.

Example create_400 :
  outcome (Schedule.create tasks hourly_task) (fixed_env (Some "tok") (inr resp_400)) fresh
  = inl (PythonAnywhereApiException
           "POST to set new task via API failed, got <Response [400]>: hour is required").
Proof. reflexivity. Qed.

Example create_202 :
  outcome (Schedule.create tasks hourly_task) (fixed_env (Some "tok") (inr resp_202)) fresh
  = inr PyNone.
Proof. reflexivity. Qed.

Example delete_404 :
  outcome (Schedule.delete tasks 7) (fixed_env (Some "tok") (inr resp_404)) fresh
  = inl (PythonAnywhereApiException
           "DELETE via API on task 7 failed, got <Response [404]>: <html>Not Found</html>").
Proof. reflexivity. Qed.

Example website_get_404 :
  outcome (Website.get sites "example.com") (fixed_env (Some "tok") (inr resp_404)) fresh
  = inl JSONDecodeError.
Proof. reflexivity. Qed.

Example website_create_existing :
  Website.create sites "example.com" "run" false
    (probing_env (Some "tok") resp_200 resp_201) fresh
  = (inl (SanityException (Website.conflict_message "example.com")),
     {| calls := [probe_request sites "example.com"];
        stdout := ["Running API sanity checks"] |}).
Proof. reflexivity. Qed.

Example website_create_new :
  Website.create sites "example.com" "run" false
    (probing_env (Some "tok") resp_404 resp_201) fresh
  = (inr created_task,
     {| calls := [probe_request sites "example.com";
                  post_request sites "example.com" "run"];
        stdout := ["Running API sanity checks"] |}).
Proof. reflexivity. Qed.

Example website_create_nuke_no_token :
  Website.create sites "example.com" "run" true
    (fixed_env None (inr resp_201)) fresh
  = (inl (SanityException Website.no_token_message),
     {| calls := []; stdout := ["Running API sanity checks"] |}).
Proof. reflexivity. Qed.

(** ** Running one step *)

Lemma call_answered {A : Type} url method body (k : Response -> M A) w st r :
  server w (calls st) (mkRequest url method body) = inr r ->
  bind (call_api url method body) k w st
  = k r w (sent st (mkRequest url method body)).
Proof.
  intros Hr. unfold bind, call_api. cbv zeta. rewrite Hr. reflexivity.
Qed.

Lemma call_broken {A : Type} url method body (k : Response -> M A) w st e :
  server w (calls st) (mkRequest url method body) = inl e ->
  bind (call_api url method body) k w st
  = (inl e, sent st (mkRequest url method body)).
Proof.
  intros He. unfold bind, call_api. cbv zeta. rewrite He. reflexivity.
Qed.

Lemma json_run (r : Response) w st : json r w st = (decoded r, st).
Proof.
  unfold json, decoded. destruct (json_body r); reflexivity.
Qed.

Lemma decoded_not_api (r : Response) msg :
  decoded r <> inl (PythonAnywhereApiException msg).
Proof.
  unfold decoded. destruct (json_body r); discriminate.
Qed.

Lemma ok_consistent_2xx (r : Response) :
  ok_consistent r = true -> ok r = false -> is_2xx (status_code r) = false.
Proof.
  unfold ok_consistent. intros Hc Hok. rewrite Hok in Hc.
  destruct (is_2xx (status_code r)); [discriminate | reflexivity].
Qed.

(** The three-way status test shared by [Schedule.create] and
    [Schedule.delete]. *)
Ltac status_cases r code :=
  destruct (Z.eqb_spec (status_code r) code) as [Heq | Hne];
  [ | destruct (ok r) eqn:Hok ]; cbn [negb].

(** ** schedule.py: outcomes by status *)

Lemma create_run self params w st r :
  server w (calls st) (mkRequest (Schedule.base_url self) "POST" (Some params))
  = inr r ->
  outcome (Schedule.create self params) w st
  = if status_code r =? 201 then decoded r
    else if ok r then inr PyNone
    else inl (PythonAnywhereApiException (Schedule.create_failed r)).
Proof.
  intros Hr. unfold outcome, Schedule.create.
  rewrite (call_answered _ _ _ _ _ _ _ Hr).
  status_cases r 201; try rewrite json_run; reflexivity.
Qed.

Lemma delete_run self task_id w st r :
  server w (calls st) (mkRequest (task_url self task_id) "DELETE" None) = inr r ->
  outcome (Schedule.delete self task_id) w st
  = if status_code r =? 204 then inr (PyBool true)
    else if ok r then inr PyNone
    else inl (PythonAnywhereApiException (Schedule.delete_failed task_id r)).
Proof.
  intros Hr. unfold outcome, Schedule.delete.
  rewrite (call_answered _ _ _ _ _ _ _ Hr).
  status_cases r 204; reflexivity.
Qed.

(** C1 (as the code has it): whatever response the server gives to the
    POST of [Schedule.create], a 201 status makes the method return what
    [json()] decodes, a response that is not [ok] makes it raise the API
    exception whose message shows the status and the raw text, and an [ok]
    response with another status, inside the 2xx range or not, makes it
    return [None].  The test is on the [ok] flag, not on the 2xx range. *)
Theorem schedule_create_by_status self params w st r :
  server w (calls st) (mkRequest (Schedule.base_url self) "POST" (Some params))
  = inr r ->
  ok_consistent r = true ->
  (status_code r = 201 ->
   outcome (Schedule.create self params) w st = decoded r) /\
  (ok r = false ->
   outcome (Schedule.create self params) w st
   = inl (PythonAnywhereApiException
            ("POST to set new task via API failed, got "
               ++ repr_Response r ++ ": " ++ text r))) /\
  (ok r = true -> status_code r <> 201 ->
   outcome (Schedule.create self params) w st = inr PyNone).
Proof.
  intros Hr Hc. rewrite (create_run _ _ _ _ _ Hr). repeat split.
  - intros ->. reflexivity.
  - intros Hok. pose proof (ok_consistent_2xx _ Hc Hok) as H2.
    destruct (Z.eqb_spec (status_code r) 201) as [Heq | _].
    + rewrite Heq in H2. discriminate.
    + rewrite Hok. reflexivity.
  - intros Hok Hne. destruct (Z.eqb_spec (status_code r) 201); [contradiction |].
    rewrite Hok. reflexivity.
Qed.

Lemma schedule_create_by_status_witness :
  outcome (Schedule.create tasks hourly_task)
    (fixed_env (Some "tok") (inr resp_400)) fresh
  = inl (PythonAnywhereApiException
           "POST to set new task via API failed, got <Response [400]>: hour is required").
Proof.
  apply (schedule_create_by_status tasks hourly_task
           (fixed_env (Some "tok") (inr resp_400)) fresh resp_400);
    reflexivity.
Defined.

(** C1 as stated fails: a 304 response is outside the 2xx range, yet it
    is [ok], so [Schedule.create] raises nothing and returns [None]. *)
Lemma schedule_create_304_returns_none :
  is_2xx (status_code resp_304) = false
  /\ ok_consistent resp_304 = true
  /\ outcome (Schedule.create tasks hourly_task)
       (fixed_env (Some "tok") (inr resp_304)) fresh
     = inr PyNone.
Proof. repeat split. Qed.

(** C3: whatever response the server gives to the DELETE of
    [Schedule.delete], a 204 status makes the method return [True], a
    response that is not [ok] makes it raise the API exception, and an [ok]
    response with another status makes it fall through and return
    [None]. *)
Theorem schedule_delete_by_status self task_id w st r :
  server w (calls st) (mkRequest (task_url self task_id) "DELETE" None) = inr r ->
  ok_consistent r = true ->
  (status_code r = 204 ->
   outcome (Schedule.delete self task_id) w st = inr (PyBool true)) /\
  (ok r = false ->
   outcome (Schedule.delete self task_id) w st
   = inl (PythonAnywhereApiException (Schedule.delete_failed task_id r))) /\
  (ok r = true -> status_code r <> 204 ->
   outcome (Schedule.delete self task_id) w st = inr PyNone).
Proof.
  intros Hr Hc. rewrite (delete_run _ _ _ _ _ Hr). repeat split.
  - intros ->. reflexivity.
  - intros Hok. pose proof (ok_consistent_2xx _ Hc Hok) as H2.
    destruct (Z.eqb_spec (status_code r) 204) as [Heq | _].
    + rewrite Heq in H2. discriminate.
    + rewrite Hok. reflexivity.
  - intros Hok Hne. destruct (Z.eqb_spec (status_code r) 204); [contradiction |].
    rewrite Hok. reflexivity.
Qed.

Lemma schedule_delete_by_status_witness :
  outcome (Schedule.delete tasks 7) (fixed_env (Some "tok") (inr resp_202)) fresh
  = inr PyNone.
Proof.
  apply (schedule_delete_by_status tasks 7
           (fixed_env (Some "tok") (inr resp_202)) fresh resp_202);
    [reflexivity | reflexivity | reflexivity | discriminate].
Defined.

Lemma get_specs_run self task_id w st r :
  server w (calls st) (mkRequest (task_url self task_id) "GET" None) = inr r ->
  outcome (Schedule.get_specs self task_id) w st
  = if status_code r =? 200 then decoded r
    else inl (PythonAnywhereApiException (Schedule.get_specs_failed task_id r)).
Proof.
  intros Hr. unfold outcome, Schedule.get_specs.
  rewrite (call_answered _ _ _ _ _ _ _ Hr).
  destruct (status_code r =? 200); [rewrite json_run |]; reflexivity.
Qed.

Lemma update_run self task_id params w st r :
  server w (calls st) (mkRequest (task_url self task_id) "PATCH" (Some params))
  = inr r ->
  outcome (Schedule.update self task_id params) w st
  = if status_code r =? 200 then decoded r
    else inl (PythonAnywhereApiException (Schedule.update_failed task_id r)).
Proof.
  intros Hr. unfold outcome, Schedule.update.
  rewrite (call_answered _ _ _ _ _ _ _ Hr).
  destruct (status_code r =? 200); [rewrite json_run |]; reflexivity.
Qed.

(** C7: for every response, [Schedule.get_specs] and [Schedule.update] end
    with what [json()] decodes exactly when the status code is 200, and
    raise the API exception, whose message shows the response and its raw
    text, for every other status. *)
Theorem schedule_read_update_by_status self task_id params w st r r' :
  server w (calls st) (mkRequest (task_url self task_id) "GET" None) = inr r ->
  server w (calls st) (mkRequest (task_url self task_id) "PATCH" (Some params))
  = inr r' ->
  (outcome (Schedule.get_specs self task_id) w st = decoded r
   <-> status_code r = 200) /\
  (status_code r <> 200 ->
   outcome (Schedule.get_specs self task_id) w st
   = inl (PythonAnywhereApiException
            ("Could not get task with id " ++ str_int task_id
               ++ ". Got result " ++ repr_Response r ++ ": " ++ text r))) /\
  (outcome (Schedule.update self task_id params) w st = decoded r'
   <-> status_code r' = 200) /\
  (status_code r' <> 200 ->
   outcome (Schedule.update self task_id params) w st
   = inl (PythonAnywhereApiException
            ("Could not update task " ++ str_int task_id
               ++ ". Got " ++ repr_Response r' ++ ": " ++ text r'))).
Proof.
  intros Hr Hr'.
  rewrite (get_specs_run _ _ _ _ _ Hr), (update_run _ _ _ _ _ _ Hr').
  split; [| split; [| split]].
  - destruct (Z.eqb_spec (status_code r) 200) as [Heq | Hne].
    + split; [intros _; exact Heq | reflexivity].
    + split; [intros H; symmetry in H; destruct (decoded_not_api _ _ H)
             | contradiction].
  - intros Hne. destruct (Z.eqb_spec (status_code r) 200); [contradiction |].
    reflexivity.
  - destruct (Z.eqb_spec (status_code r') 200) as [Heq | Hne].
    + split; [intros _; exact Heq | reflexivity].
    + split; [intros H; symmetry in H; destruct (decoded_not_api _ _ H)
             | contradiction].
  - intros Hne. destruct (Z.eqb_spec (status_code r') 200); [contradiction |].
    reflexivity.
Qed.

Lemma schedule_read_update_by_status_witness :
  outcome (Schedule.get_specs tasks 7) (fixed_env (Some "tok") (inr resp_404)) fresh
  = inl (PythonAnywhereApiException
           "Could not get task with id 7. Got result <Response [404]>: <html>Not Found</html>").
Proof.
  apply (schedule_read_update_by_status tasks 7 hourly_task
           (fixed_env (Some "tok") (inr resp_404)) fresh resp_404 resp_404);
    [reflexivity | reflexivity | discriminate].
Defined.

(** ** website.py: the methods with a single call *)

Lemma json_passes_through url method body w st r :
  server w (calls st) (mkRequest url method body) = inr r ->
  passes_through (response <- call_api url method body ;; json response) w st r.
Proof.
  intros Hr. unfold passes_through, outcome.
  rewrite (call_answered _ _ _ _ _ _ _ Hr), json_run. cbn [fst].
  split; [reflexivity | apply decoded_not_api].
Qed.

(** C8: for every response, [Website.get], [Website.list],
    [Website.reload] and [Schedule.get_list] end as [json()] on that
    response does, whatever its status code, [ok] flag and text are, and
    never with an API exception. *)
Theorem pass_through_methods site sched domain_name w st r :
  (server w (calls st)
     (mkRequest (Website.websites_base_url site ++ domain_name ++ "/") "get" None)
   = inr r ->
   passes_through (Website.get site domain_name) w st r) /\
  (server w (calls st) (mkRequest (Website.websites_base_url site) "get" None)
   = inr r ->
   passes_through (Website.list site) w st r) /\
  (server w (calls st)
     (mkRequest (Website.websites_base_url site ++ domain_name ++ "/reload/")
        "post" None)
   = inr r ->
   passes_through (Website.reload site domain_name) w st r) /\
  (server w (calls st) (mkRequest (Schedule.base_url sched) "GET" None) = inr r ->
   passes_through (Schedule.get_list sched) w st r).
Proof.
  split; [| split; [| split]]; intros Hr;
    exact (json_passes_through _ _ _ _ _ _ Hr).
Qed.

Lemma pass_through_methods_witness :
  outcome (Website.get sites "example.com")
    (fixed_env (Some "tok") (inr resp_500)) fresh
  = inl JSONDecodeError
  /\ outcome (Schedule.get_list tasks)
       (fixed_env (Some "tok") (inr resp_400)) fresh
     = inr (PyDict [("detail", PyStr "hour is required")]).
Proof.
  split.
  - apply (pass_through_methods sites tasks "example.com"
             (fixed_env (Some "tok") (inr resp_500)) fresh resp_500).
    reflexivity.
  - apply (pass_through_methods sites tasks "example.com"
             (fixed_env (Some "tok") (inr resp_400)) fresh resp_400).
    reflexivity.
Defined.

(** C6: for every response to the GET of [Website.get_ssl_info], a
    response that is not [ok] makes the method raise the API exception
    whose message shows the status and the raw text, and an [ok] response
    makes it end as [json()] does, the decoded mapping as it is. *)
Theorem get_ssl_info_by_ok site domain_name w st r :
  server w (calls st)
    (mkRequest (Website.domains_base_url site ++ domain_name ++ "/ssl/") "get" None)
  = inr r ->
  (ok r = false ->
   outcome (Website.get_ssl_info site domain_name) w st
   = inl (PythonAnywhereApiException
            ("GET SSL details via API failed, got " ++ repr_Response r
               ++ ":" ++ text r))) /\
  (ok r = true ->
   outcome (Website.get_ssl_info site domain_name) w st = decoded r).
Proof.
  intros Hr. unfold outcome, Website.get_ssl_info.
  rewrite (call_answered _ _ _ _ _ _ _ Hr).
  split; intros Hok; rewrite Hok; cbn [negb]; [| rewrite json_run]; reflexivity.
Qed.

Lemma get_ssl_info_by_ok_witness :
  outcome (Website.get_ssl_info sites "example.com")
    (fixed_env (Some "tok") (inr resp_404)) fresh
  = inl (PythonAnywhereApiException
           "GET SSL details via API failed, got <Response [404]>:<html>Not Found</html>").
Proof.
  apply (get_ssl_info_by_ok sites "example.com"
           (fixed_env (Some "tok") (inr resp_404)) fresh resp_404);
    reflexivity.
Defined.

(** C9: for every domain name and every response, [Website.delete] sends
    the DELETE request and returns the empty dict; the status code and the
    body of the response play no part, and no exception is raised. *)
Theorem website_delete_unconditional site domain_name w st r :
  server w (calls st)
    (mkRequest (Website.websites_base_url site ++ domain_name ++ "/") "delete" None)
  = inr r ->
  Website.delete site domain_name w st
  = (inr (PyDict []),
     sent st (mkRequest (Website.websites_base_url site ++ domain_name ++ "/")
                "delete" None)).
Proof.
  intros Hr. unfold Website.delete.
  rewrite (call_answered _ _ _ _ _ _ _ Hr). reflexivity.
Qed.

Lemma website_delete_unconditional_witness :
  Website.delete sites "example.com" (fixed_env (Some "tok") (inr resp_500)) fresh
  = (inr (PyDict []),
     {| calls := [mkRequest
                    "https://www.pythonanywhere.com/api/v1/user/alice/websites/example.com/"
                    "delete" None];
        stdout := [] |}).
Proof.
  apply (website_delete_unconditional sites "example.com"
           (fixed_env (Some "tok") (inr resp_500)) fresh resp_500).
  reflexivity.
Defined.

(** ** website.py: the sanity check and [create] *)

Lemma sanity_check_run site domain_name nuke w st :
  Website.sanity_check site domain_name nuke w st
  = let st1 := printed st (snakesay w "Running API sanity checks") in
    if negb (truthy (environ w "API_TOKEN")) then
      (inl (SanityException Website.no_token_message), st1)
    else if nuke then (inr PyNone, st1)
    else
      (match server w (calls st) (probe_request site domain_name) with
       | inl e => inl e
       | inr r =>
           if status_code r =? 200 then
             inl (SanityException (Website.conflict_message domain_name))
           else inr PyNone
       end,
       sent st1 (probe_request site domain_name)).
Proof.
  unfold Website.sanity_check, bind, call_snakesay, print, os_environ_get,
    call_api, probe_request, printed, sent.
  destruct (truthy (environ w "API_TOKEN")); cbn [negb]; [| reflexivity].
  destruct nuke; [reflexivity |].
  cbv zeta. cbn [calls stdout].
  destruct (server w (calls st) _) as [e | r]; [reflexivity |].
  destruct (status_code r =? 200); reflexivity.
Qed.

Lemma website_create_run site domain_name command nuke w st :
  Website.create site domain_name command nuke w st
  = match Website.sanity_check site domain_name nuke w st with
    | (inl e, st') => (inl e, st')
    | (inr _, st') =>
        (match server w (calls st') (post_request site domain_name command) with
         | inl e => inl e
         | inr r => decoded r
         end,
         sent st' (post_request site domain_name command))
    end.
Proof.
  unfold Website.create, bind at 1.
  destruct (Website.sanity_check site domain_name nuke w st) as [[e | v] st'];
    [reflexivity |].
  unfold bind, call_api, post_request, sent. cbv zeta.
  destruct (server w (calls st') _) as [e | r]; [reflexivity |].
  rewrite json_run. reflexivity.
Qed.

Lemma truthy_absent_or_empty token :
  token = None \/ token = Some "" -> truthy token = false.
Proof. intros [-> | ->]; reflexivity. Qed.

(** C2: with the API token present, [Website.create] with [nuke=False]
    issues the GET probe on the item endpoint of the domain before anything
    else, and when the probe is answered with status 200 the method raises
    the conflict exception and the probe is the only request it has
    issued: the create POST never goes out. *)
Theorem website_create_conflict site domain_name command w st :
  truthy (environ w "API_TOKEN") = true ->
  (exists rest,
     issued (Website.create site domain_name command false) w st
     = (calls st ++ probe_request site domain_name :: rest)%list) /\
  (forall r,
     server w (calls st) (probe_request site domain_name) = inr r ->
     status_code r = 200 ->
     outcome (Website.create site domain_name command false) w st
     = inl (SanityException (Website.conflict_message domain_name))
     /\ issued (Website.create site domain_name command false) w st
        = (calls st ++ [probe_request site domain_name])%list).
Proof.
  intros Htok. unfold outcome, issued.
  rewrite website_create_run, sanity_check_run. cbv zeta.
  rewrite Htok. cbn [negb]. split.
  - destruct (server w (calls st) (probe_request site domain_name)) as [e | r].
    + exists []. reflexivity.
    + destruct (status_code r =? 200).
      * exists []. reflexivity.
      * exists [post_request site domain_name command].
        cbn [snd sent printed calls]. rewrite <- app_assoc. reflexivity.
  - intros r Hr H200. rewrite Hr, H200. cbn. split; reflexivity.
Qed.

Lemma website_create_conflict_witness :
  outcome (Website.create sites "example.com" "run" false)
    (probing_env (Some "tok") resp_200 resp_201) fresh
  = inl (SanityException (Website.conflict_message "example.com"))
  /\ issued (Website.create sites "example.com" "run" false)
       (probing_env (Some "tok") resp_200 resp_201) fresh
     = [probe_request sites "example.com"].
Proof.
  apply (proj2 (website_create_conflict sites "example.com" "run"
                  (probing_env (Some "tok") resp_200 resp_201) fresh
                  eq_refl) resp_200);
    reflexivity.
Defined.

(** C5: whatever [nuke] is, when [API_TOKEN] is absent from the process
    environment or empty, [Website.create] raises the configuration
    exception and the list of requests issued is what it was before the
    call: the exception comes before any network call. *)
Theorem website_create_without_token site domain_name command nuke w st :
  environ w "API_TOKEN" = None \/ environ w "API_TOKEN" = Some "" ->
  outcome (Website.create site domain_name command nuke) w st
  = inl (SanityException Website.no_token_message)
  /\ issued (Website.create site domain_name command nuke) w st = calls st.
Proof.
  intros Htok. apply truthy_absent_or_empty in Htok.
  unfold outcome, issued.
  rewrite website_create_run, sanity_check_run. cbv zeta.
  rewrite Htok. split; reflexivity.
Qed.

Lemma website_create_without_token_witness :
  outcome (Website.create sites "example.com" "run" true)
    (fixed_env (Some "") (inr resp_201)) fresh
  = inl (SanityException Website.no_token_message)
  /\ issued (Website.create sites "example.com" "run" true)
       (fixed_env (Some "") (inr resp_201)) fresh
     = [].
Proof.
  apply (website_create_without_token sites "example.com" "run" true
           (fixed_env (Some "") (inr resp_201)) fresh).
  right. reflexivity.
Defined.

(** C10: with the API token present and [nuke=False], whatever response
    the probe gets, [Website.sanity_check] raises a [SanityException] if
    and only if the status code of that response is 200, and then it is
    the conflict exception; for every other status the check returns
    normally and [Website.create] goes on to issue the create POST right
    after the probe. *)
Theorem sanity_conflict_iff_200 site domain_name command w st r :
  truthy (environ w "API_TOKEN") = true ->
  server w (calls st) (probe_request site domain_name) = inr r ->
  ((exists msg,
      outcome (Website.sanity_check site domain_name false) w st
      = inl (SanityException msg))
   <-> status_code r = 200) /\
  (status_code r = 200 ->
   outcome (Website.sanity_check site domain_name false) w st
   = inl (SanityException (Website.conflict_message domain_name))) /\
  (status_code r <> 200 ->
   outcome (Website.sanity_check site domain_name false) w st = inr PyNone
   /\ issued (Website.create site domain_name command false) w st
      = (calls st ++ [probe_request site domain_name;
                      post_request site domain_name command])%list).
Proof.
  intros Htok Hr. unfold outcome, issued.
  rewrite website_create_run, sanity_check_run. cbv zeta.
  rewrite Htok, Hr. cbn [negb fst].
  destruct (Z.eqb_spec (status_code r) 200) as [Heq | Hne].
  - split; [| split].
    + split; [intros _; exact Heq | intros _; eexists; reflexivity].
    + reflexivity.
    + contradiction.
  - split; [| split].
    + split; [intros [msg H]; discriminate | contradiction].
    + contradiction.
    + intros _. split; [reflexivity |].
      cbn [snd sent printed calls]. rewrite <- app_assoc. reflexivity.
Qed.

Lemma sanity_conflict_iff_200_witness :
  outcome (Website.sanity_check sites "example.com" false)
    (probing_env (Some "tok") resp_500 resp_201) fresh
  = inr PyNone
  /\ issued (Website.create sites "example.com" "run" false)
       (probing_env (Some "tok") resp_500 resp_201) fresh
     = [probe_request sites "example.com";
        post_request sites "example.com" "run"].
Proof.
  apply (sanity_conflict_iff_200 sites "example.com" "run"
           (probing_env (Some "tok") resp_500 resp_201) fresh resp_500);
    [reflexivity | reflexivity | discriminate].
Defined.

(** ** Counting the network calls *)

(** A call followed by code that sends nothing issues exactly that call. *)
Lemma one_call {A : Type} url method body (k : Response -> M A) w st :
  (forall r w' st', calls (snd (k r w' st')) = calls st') ->
  issued (bind (call_api url method body) k) w st
  = (calls st ++ [mkRequest url method body])%list.
Proof.
  intros Hk. unfold issued, bind, call_api. cbv zeta.
  destruct (server w (calls st) _) as [e | r]; [reflexivity |].
  rewrite Hk. reflexivity.
Qed.

Ltac quiet_continuation :=
  intros r w' st';
  repeat match goal with
         | |- context [if ?b then _ else _] => destruct b
         end;
  try rewrite json_run; reflexivity.

Lemma sanity_check_calls site domain_name nuke w st :
  exists new,
    issued (Website.sanity_check site domain_name nuke) w st
    = (calls st ++ new)%list
    /\ (length new <= 1)%nat
    /\ (nuke = true -> new = []).
Proof.
  unfold issued. rewrite sanity_check_run. cbv zeta.
  destruct (truthy (environ w "API_TOKEN")); cbn [negb].
  - destruct nuke.
    + exists []. cbn. rewrite app_nil_r. repeat split. lia.
    + exists [probe_request site domain_name]. cbn.
      repeat split; [lia | discriminate].
  - exists []. cbn. rewrite app_nil_r. repeat split. lia.
Qed.

Lemma website_create_calls site domain_name command nuke w st :
  exists new,
    issued (Website.create site domain_name command nuke) w st
    = (calls st ++ new)%list
    /\ (length new <= 2)%nat
    /\ (nuke = true ->
        new = [] \/ new = [post_request site domain_name command]).
Proof.
  unfold issued. rewrite website_create_run, sanity_check_run. cbv zeta.
  destruct (truthy (environ w "API_TOKEN")); cbn [negb].
  - destruct nuke.
    + exists [post_request site domain_name command]. cbn.
      repeat split; [lia | intros _; right; reflexivity].
    + destruct (server w (calls st) (probe_request site domain_name)) as [e | r];
        [| destruct (status_code r =? 200)].
      * exists [probe_request site domain_name]. cbn.
        repeat split; [lia | discriminate].
      * exists [probe_request site domain_name]. cbn.
        repeat split; [lia | discriminate].
      * exists [probe_request site domain_name;
                post_request site domain_name command].
        cbn. rewrite <- app_assoc.
        repeat split; [lia | discriminate].
  - exists []. cbn. rewrite app_nil_r.
    repeat split; [lia | intros _; left; reflexivity].
Qed.

Lemma post_is_not_probe site domain_name command :
  post_request site domain_name command <> probe_request site domain_name.
Proof.
  intros H. apply (f_equal req_method) in H. discriminate.
Qed.

Lemma invoke_calls i w st :
  exists new,
    issued (invoke i) w st = (calls st ++ new)%list
    /\ (length new <= 2)%nat
    /\ (length new = 2%nat ->
        exists site domain_name command,
          i = WebsiteCreate site domain_name command false).
Proof.
  destruct i; cbn [invoke];
    try (eexists; split;
         [ unfold Schedule.create, Schedule.delete, Schedule.get_list,
             Schedule.get_specs, Schedule.update, Website.get, Website.list,
             Website.reload, Website.auto_ssl, Website.get_ssl_info,
             Website.delete;
           apply one_call; quiet_continuation
         | split; [cbn; lia | cbn; discriminate] ]).
  - destruct (sanity_check_calls self domain_name nuke w st)
      as [new [Hnew [Hlen _]]].
    exists new. repeat split; [exact Hnew | lia | lia].
  - destruct (website_create_calls self domain_name command nuke w st)
      as [new [Hnew [Hlen Hnuke]]].
    exists new. repeat split; [exact Hnew | exact Hlen |].
    intros H2. destruct nuke; [| eauto].
    destruct (Hnuke eq_refl) as [-> | ->]; discriminate.
Qed.

(** C4 (as the code has it): [Website.create] with [nuke=True] never
    sends the existence probe: every request it issues is the create POST,
    so the item endpoint of the domain gets no GET; when the API token is
    present it issues exactly one request, the create POST.  More
    generally, every public method of the two classes issues at most two
    requests, and one that issues two is [Website.create] with
    [nuke=False]. *)
Theorem website_create_nuke_calls :
  (forall site domain_name command w st,
     exists new,
       issued (Website.create site domain_name command true) w st
       = (calls st ++ new)%list
       /\ forall req, In req new ->
            req = post_request site domain_name command
            /\ req <> probe_request site domain_name) /\
  (forall site domain_name command w st,
     truthy (environ w "API_TOKEN") = true ->
     issued (Website.create site domain_name command true) w st
     = (calls st ++ [post_request site domain_name command])%list) /\
  (forall i w st,
     exists new,
       issued (invoke i) w st = (calls st ++ new)%list
       /\ (length new <= 2)%nat
       /\ (length new = 2%nat ->
           exists site domain_name command,
             i = WebsiteCreate site domain_name command false)).
Proof.
  split; [| split].
  - intros site domain_name command w st.
    destruct (website_create_calls site domain_name command true w st)
      as [new [Hnew [_ Hnuke]]].
    exists new. split; [exact Hnew |].
    intros req Hin. destruct (Hnuke eq_refl) as [-> | ->].
    + destruct Hin.
    + destruct Hin as [<- | []].
      split; [reflexivity | apply post_is_not_probe].
  - intros site domain_name command w st Htok. unfold issued.
    rewrite website_create_run, sanity_check_run. cbv zeta.
    rewrite Htok. reflexivity.
  - exact invoke_calls.
Qed.

Lemma website_create_nuke_calls_witness :
  issued (Website.create sites "example.com" "run" true)
    (fixed_env (Some "tok") (inr resp_201)) fresh
  = [post_request sites "example.com" "run"].
Proof.
  apply (proj1 (proj2 website_create_nuke_calls) sites "example.com" "run"
           (fixed_env (Some "tok") (inr resp_201)) fresh).
  reflexivity.
Defined.

(** C4 as stated fails: with [nuke=True] and no API token in the
    environment, [Website.create] stops at the token test and issues no
    request at all, not the one create POST. *)
Lemma website_create_nuke_no_token_no_post :
  issued (Website.create sites "example.com" "run" true)
    (fixed_env None (inr resp_201)) fresh
  <> (calls fresh ++ [post_request sites "example.com" "run"])%list.
Proof.
  intros H. vm_compute in H. discriminate.
Qed.

(** ** Beyond the status tests: what goes on the wire and to the console *)

(** A call followed by code that leaves the state alone ends in the state
    with that one request added. *)
Lemma one_call_state {A : Type} url method body (k : Response -> M A) w st :
  (forall r w' st', snd (k r w' st') = st') ->
  snd (bind (call_api url method body) k w st)
  = sent st (mkRequest url method body).
Proof.
  intros Hk. unfold bind, call_api. cbv zeta.
  destruct (server w (calls st) _) as [e | r]; [reflexivity |].
  rewrite Hk. reflexivity.
Qed.

Ltac unfold_methods :=
  unfold Schedule.create, Schedule.delete, Schedule.get_list,
    Schedule.get_specs, Schedule.update, Website.get, Website.list,
    Website.reload, Website.auto_ssl, Website.get_ssl_info, Website.delete.

Lemma single_call_state i req w st :
  single_request i = Some req -> snd (invoke i w st) = sent st req.
Proof.
  destruct i; cbn [single_request invoke]; intros [= <-];
    unfold_methods; apply one_call_state; quiet_continuation.
Qed.

Lemma single_call_broken i req w st e :
  single_request i = Some req ->
  server w (calls st) req = inl e ->
  fst (invoke i w st) = inl e.
Proof.
  destruct i; cbn [single_request invoke]; intros [= <-] He;
    exact (f_equal fst (call_broken _ _ _ _ _ _ _ He)).
Qed.

(** X1: for every response to its POST, [Website.auto_ssl] has sent one
    request, to the [ssl/] endpoint of the domain with the fixed payload
    [cert_type = letsencrypt-auto-renew], and ends as [json()] on the
    response does: no status test, no API exception. *)
Theorem auto_ssl_pass_through site domain_name w st r :
  server w (calls st) (auto_ssl_request site domain_name) = inr r ->
  passes_through (Website.auto_ssl site domain_name) w st r
  /\ issued (Website.auto_ssl site domain_name) w st
     = (calls st ++ [mkRequest
                       (Website.domains_base_url site ++ domain_name ++ "/ssl/")
                       "post"
                       (Some (PyDict [("cert_type",
                                       PyStr "letsencrypt-auto-renew")]))])%list.
Proof.
  intros Hr. split.
  - exact (json_passes_through _ _ _ _ _ _ Hr).
  - exact (f_equal calls
             (single_call_state (WebsiteAutoSsl site domain_name) _ w st
                eq_refl)).
Qed.

Lemma auto_ssl_pass_through_witness :
  outcome (Website.auto_ssl sites "example.com")
    (fixed_env (Some "tok") (inr resp_400)) fresh
  = inr (PyDict [("detail", PyStr "hour is required")]).
Proof.
  apply (auto_ssl_pass_through sites "example.com"
           (fixed_env (Some "tok") (inr resp_400)) fresh resp_400).
  reflexivity.
Defined.

(** X3: a method other than [sanity_check] and [create] sends exactly one
    request, whatever the server does with it, and prints nothing; when
    the HTTP layer raises on that request, the method raises the same
    exception: nothing is caught or wrapped. *)
Theorem single_call_methods i req w st :
  single_request i = Some req ->
  snd (invoke i w st)
  = {| calls := calls st ++ [req]; stdout := stdout st |}
  /\ forall e, server w (calls st) req = inl e ->
               outcome (invoke i) w st = inl e.
Proof.
  intros Hreq. split.
  - exact (single_call_state _ _ _ _ Hreq).
  - intros e He. exact (single_call_broken _ _ _ _ _ Hreq He).
Qed.

Lemma single_call_methods_witness :
  snd (Schedule.update tasks 7 hourly_task (fixed_env None (inl refused)) fresh)
  = {| calls := [mkRequest
                   "https://www.pythonanywhere.com/api/v0/user/alice/schedule/7/"
                   "PATCH" (Some hourly_task)];
       stdout := [] |}
  /\ outcome (Schedule.update tasks 7 hourly_task)
       (fixed_env None (inl refused)) fresh
     = inl refused.
Proof.
  destruct (single_call_methods (ScheduleUpdate tasks 7 hourly_task) _
              (fixed_env None (inl refused)) fresh eq_refl) as [Hst Hexn].
  split; [exact Hst | exact (Hexn refused eq_refl)].
Defined.

(** X5: [sanity_check], and [create] through it, print one line, the
    [snakesay] banner, on every path, the raising ones included; no other
    method prints anything. *)
Theorem console_output i w st :
  stdout (snd (invoke i w st))
  = (stdout st ++ if runs_sanity_check i then [banner w] else [])%list.
Proof.
  destruct (single_request i) as [req |] eqn:Hreq.
  - rewrite (single_call_state _ _ _ _ Hreq).
    destruct i; try discriminate; cbn; rewrite app_nil_r; reflexivity.
  - destruct i; try discriminate; cbn [invoke runs_sanity_check].
    + rewrite sanity_check_run. cbv zeta.
      destruct (negb (truthy (environ w "API_TOKEN"))); [reflexivity |].
      destruct nuke; reflexivity.
    + rewrite website_create_run, sanity_check_run. cbv zeta.
      destruct (negb (truthy (environ w "API_TOKEN"))); [reflexivity |].
      destruct nuke; [reflexivity |].
      destruct (server w (calls st) _) as [e | r]; [reflexivity |].
      destruct (status_code r =? 200); reflexivity.
Qed.

(** ** [create] past the sanity check *)

Lemma create_after_check site domain_name command nuke w st :
  truthy (environ w "API_TOKEN") = true ->
  (nuke = true
   \/ exists probe, server w (calls st) (probe_request site domain_name)
                    = inr probe
                    /\ status_code probe <> 200) ->
  Website.create site domain_name command nuke w st
  = (match server w (before_post site domain_name nuke st)
             (post_request site domain_name command) with
     | inl e => inl e
     | inr r => decoded r
     end,
     {| calls := before_post site domain_name nuke st
                 ++ [post_request site domain_name command];
        stdout := stdout st ++ [banner w] |}).
Proof.
  intros Htok Hpass.
  rewrite website_create_run, sanity_check_run. cbv zeta.
  rewrite Htok. cbn [negb].
  destruct Hpass as [-> | [probe [Hprobe Hstatus]]]; [reflexivity |].
  destruct nuke; [reflexivity |].
  rewrite Hprobe. apply Z.eqb_neq in Hstatus. rewrite Hstatus. reflexivity.
Qed.

(** X2: once the sanity check has passed (token present, and either
    [nuke=True] or a probe answered with a status other than 200),
    [Website.create] ends as [json()] on the response to its POST does,
    whatever the status of that response: a failed create is not turned
    into an API exception. *)
Theorem website_create_no_status_test site domain_name command nuke w st r :
  truthy (environ w "API_TOKEN") = true ->
  (nuke = true
   \/ exists probe, server w (calls st) (probe_request site domain_name)
                    = inr probe
                    /\ status_code probe <> 200) ->
  server w (before_post site domain_name nuke st)
    (post_request site domain_name command) = inr r ->
  passes_through (Website.create site domain_name command nuke) w st r.
Proof.
  intros Htok Hpass Hr. unfold passes_through, outcome.
  rewrite (create_after_check _ _ _ _ _ _ Htok Hpass), Hr. cbn [fst].
  split; [reflexivity | apply decoded_not_api].
Qed.

Lemma website_create_no_status_test_witness :
  outcome (Website.create sites "example.com" "run" true)
    (fixed_env (Some "tok") (inr resp_400)) fresh
  = inr (PyDict [("detail", PyStr "hour is required")]).
Proof.
  apply (website_create_no_status_test sites "example.com" "run" true
           (fixed_env (Some "tok") (inr resp_400)) fresh resp_400);
    [reflexivity | left; reflexivity | reflexivity].
Defined.

(** X4: an exception of the HTTP layer ends [Website.create] where it
    happens.  Raised on the probe, it leaves [create] with that exception
    and the probe as the only request issued: no POST follows.  Raised on
    the POST, it is what [create] raises. *)
Theorem website_create_transport_failure site domain_name command nuke w st e :
  truthy (environ w "API_TOKEN") = true ->
  (server w (calls st) (probe_request site domain_name) = inl e ->
   Website.create site domain_name command false w st
   = (inl e,
      {| calls := calls st ++ [probe_request site domain_name];
         stdout := stdout st ++ [banner w] |})) /\
  ((nuke = true
    \/ exists probe, server w (calls st) (probe_request site domain_name)
                     = inr probe
                     /\ status_code probe <> 200) ->
   server w (before_post site domain_name nuke st)
     (post_request site domain_name command) = inl e ->
   outcome (Website.create site domain_name command nuke) w st = inl e).
Proof.
  intros Htok. split.
  - intros He. rewrite website_create_run, sanity_check_run. cbv zeta.
    rewrite Htok, He. reflexivity.
  - intros Hpass He. unfold outcome.
    rewrite (create_after_check _ _ _ _ _ _ Htok Hpass), He. reflexivity.
Qed.

Lemma website_create_transport_failure_witness :
  Website.create sites "example.com" "run" false
    (fixed_env (Some "tok") (inl refused)) fresh
  = (inl refused,
     {| calls := [probe_request sites "example.com"];
        stdout := ["Running API sanity checks"] |}).
Proof.
  apply (proj1 (website_create_transport_failure sites "example.com" "run"
                  false (fixed_env (Some "tok") (inl refused)) fresh refused
                  eq_refl)).
  reflexivity.
Defined.

(** X10: when the probe finds no website (any status but 200),
    [Website.create] with [nuke=False] goes on exactly as a call with
    [nuke=True] made once the probe is on the wire: same POST, same result,
    same final state. *)
Theorem create_after_probe_is_create_nuke site domain_name command w st probe :
  truthy (environ w "API_TOKEN") = true ->
  server w (calls st) (probe_request site domain_name) = inr probe ->
  status_code probe <> 200 ->
  Website.create site domain_name command false w st
  = Website.create site domain_name command true w
      (sent st (probe_request site domain_name)).
Proof.
  intros Htok Hprobe Hstatus.
  rewrite (create_after_check site domain_name command false w st Htok)
    by (right; exists probe; split; assumption).
  rewrite (create_after_check site domain_name command true w _ Htok)
    by (left; reflexivity).
  reflexivity.
Qed.

Lemma create_after_probe_is_create_nuke_witness :
  Website.create sites "example.com" "run" false
    (probing_env (Some "tok") resp_404 resp_201) fresh
  = Website.create sites "example.com" "run" true
      (probing_env (Some "tok") resp_404 resp_201)
      {| calls := [probe_request sites "example.com"]; stdout := [] |}.
Proof.
  apply (create_after_probe_is_create_nuke sites "example.com" "run"
           (probing_env (Some "tok") resp_404 resp_201) fresh resp_404);
    [reflexivity | reflexivity | discriminate].
Defined.

(** ** The sanity check on its own *)

(** X11: [Website.sanity_check] sends the probe, a GET on the item
    endpoint of the domain, exactly when the token is present and [nuke]
    is false, and never anything else. *)
Theorem sanity_check_requests site domain_name nuke w st :
  issued (Website.sanity_check site domain_name nuke) w st
  = (calls st
       ++ if truthy (environ w "API_TOKEN") && negb nuke
          then [mkRequest
                  (Website.websites_base_url site ++ domain_name ++ "/")
                  "get" None]
          else [])%list.
Proof.
  unfold issued. rewrite sanity_check_run. cbv zeta.
  destruct (truthy (environ w "API_TOKEN")); cbn [negb andb].
  - destruct nuke; cbn; [rewrite app_nil_r |]; reflexivity.
  - cbn. rewrite app_nil_r. reflexivity.
Qed.

(** X7: of the response to its probe [Website.sanity_check] reads the
    status code and nothing else: two runs that differ only in the [ok]
    flag, the text and the body of the probe response end alike. *)
Theorem sanity_check_reads_status_only site domain_name nuke w w' st r r' :
  environ w "API_TOKEN" = environ w' "API_TOKEN" ->
  banner w = banner w' ->
  server w (calls st) (probe_request site domain_name) = inr r ->
  server w' (calls st) (probe_request site domain_name) = inr r' ->
  status_code r = status_code r' ->
  Website.sanity_check site domain_name nuke w st
  = Website.sanity_check site domain_name nuke w' st.
Proof.
  intros Henv Hbanner Hr Hr' Hstatus. unfold banner in Hbanner.
  rewrite !sanity_check_run. cbv zeta.
  rewrite Henv, Hbanner, Hr, Hr', Hstatus. reflexivity.
Qed.

Lemma sanity_check_reads_status_only_witness :
  Website.sanity_check sites "example.com" false
    (fixed_env (Some "tok") (inr resp_404)) fresh
  = Website.sanity_check sites "example.com" false
      (fixed_env (Some "tok")
         (inr (mkResponse 404 true "{}" (Some (PyDict []))))) fresh.
Proof.
  apply (sanity_check_reads_status_only sites "example.com" false
           (fixed_env (Some "tok") (inr resp_404))
           (fixed_env (Some "tok")
              (inr (mkResponse 404 true "{}" (Some (PyDict [])))))
           fresh resp_404 (mkResponse 404 true "{}" (Some (PyDict []))));
    reflexivity.
Defined.

(** ** Where the exceptions come from *)

Lemma decoded_not_sanity (r : Response) msg :
  decoded r <> inl (SanityException msg).
Proof.
  unfold decoded. destruct (json_body r); discriminate.
Qed.

Lemma decoded_not_transport (r : Response) msg :
  decoded r <> inl (TransportError msg).
Proof.
  unfold decoded. destruct (json_body r); discriminate.
Qed.

Ltac by_outcome :=
  cbn [fst];
  repeat split; intros;
  first [ reflexivity
        | discriminate
        | exfalso; eapply decoded_not_api; eassumption
        | exfalso; eapply decoded_not_sanity; eassumption
        | exfalso; eapply decoded_not_transport; eassumption
        | intro; discriminate
        | apply decoded_not_transport ].

(** X8: against a server that answers every request, a
    [PythonAnywhereApiException] comes only out of the five methods that
    test the response ([Schedule.create], [delete], [get_specs], [update]
    and [Website.get_ssl_info]), a [SanityException] only out of
    [sanity_check] and [create], and no method raises anything of the HTTP
    layer. *)
Theorem exception_sources i w st :
  always_answers w ->
  (forall msg,
     outcome (invoke i) w st = inl (PythonAnywhereApiException msg) ->
     checks_response i = true) /\
  (forall msg,
     outcome (invoke i) w st = inl (SanityException msg) ->
     runs_sanity_check i = true) /\
  (forall msg, outcome (invoke i) w st <> inl (TransportError msg)).
Proof.
  intros Hans. unfold outcome.
  destruct i; cbn [invoke checks_response runs_sanity_check];
    try (unfold_methods;
         match goal with
         | |- context [bind (call_api ?u ?m ?b) _ w st] =>
             destruct (Hans (calls st) (mkRequest u m b)) as [r Hr]
         end;
         rewrite (call_answered _ _ _ _ _ _ _ Hr);
         repeat match goal with
                | |- context [if ?b then _ else _] => destruct b
                end;
         rewrite ?json_run; by_outcome).
  - rewrite sanity_check_run. cbv zeta.
    destruct (negb (truthy (environ w "API_TOKEN"))); [by_outcome |].
    destruct nuke; [by_outcome |].
    destruct (Hans (calls st) (probe_request self domain_name)) as [r Hr].
    rewrite Hr. destruct (status_code r =? 200); by_outcome.
  - rewrite website_create_run, sanity_check_run. cbv zeta.
    destruct (negb (truthy (environ w "API_TOKEN"))); [by_outcome |].
    destruct nuke.
    + match goal with
      | |- context [server w ?h ?req] => destruct (Hans h req) as [r Hr]
      end.
      rewrite Hr. by_outcome.
    + destruct (Hans (calls st) (probe_request self domain_name)) as [p Hp].
      rewrite Hp. destruct (status_code p =? 200); [by_outcome |].
      match goal with
      | |- context [server w ?h (post_request ?s ?d ?c)] =>
          destruct (Hans h (post_request s d c)) as [r Hr]
      end.
      rewrite Hr. by_outcome.
Qed.

Lemma exception_sources_witness :
  outcome (Website.reload sites "example.com")
    (fixed_env (Some "tok") (inr resp_500)) fresh
  <> inl (PythonAnywhereApiException "Server Error").
Proof.
  intros H.
  assert (Hans : always_answers (fixed_env (Some "tok") (inr resp_500)))
    by (intros history req; exists resp_500; reflexivity).
  pose proof (proj1 (exception_sources (WebsiteReload sites "example.com")
                       (fixed_env (Some "tok") (inr resp_500)) fresh Hans)
                "Server Error" H) as Hfalse.
  discriminate Hfalse.
Defined.

(** ** The item URLs *)

Lemma append_inv_head (s a b : string) : s ++ a = s ++ b -> a = b.
Proof.
  induction s as [| c s IH]; cbn; intros H; [exact H |].
  injection H as H. exact (IH H).
Qed.

Lemma append_slash_inj (a b : string) : a ++ "/" = b ++ "/" -> a = b.
Proof.
  revert b. induction a as [| c a IH]; intros [| c' b] H; cbn in H.
  - reflexivity.
  - injection H as _ H. destruct b; discriminate.
  - injection H as _ H. destruct a; discriminate.
  - injection H as -> H. f_equal. exact (IH _ H).
Qed.

Lemma to_int_not_nil (n : Z) :
  Z.to_int n <> Decimal.Pos Decimal.Nil /\ Z.to_int n <> Decimal.Neg Decimal.Nil.
Proof.
  destruct n as [| p | p]; cbn; split; try discriminate;
    intros [= H]; exact (DecimalPos.Unsigned.to_uint_nonnil p H).
Qed.

Lemma str_int_inj (a b : Z) : str_int a = str_int b -> a = b.
Proof.
  unfold str_int. intros H.
  apply DecimalZ.to_int_inj.
  destruct (to_int_not_nil a) as [Ha1 Ha2].
  destruct (to_int_not_nil b) as [Hb1 Hb2].
  pose proof (NilZero.isi _ Ha1 Ha2) as Ia.
  pose proof (NilZero.isi _ Hb1 Hb2) as Ib.
  rewrite H in Ia. rewrite Ia in Ib. injection Ib as Ib. exact Ib.
Qed.

(** X9: the item URLs keep their items apart.  Two different task ids give
    two different URLs to [Schedule.get_specs], [update] and [delete], and
    two different domain names give two different URLs to [Website.get],
    [delete] and the probe of [sanity_check]. *)
Theorem item_urls_distinct sched site :
  (forall a b : Z, a <> b -> task_url sched a <> task_url sched b) /\
  (forall d d' : string, d <> d' -> item_url site d <> item_url site d').
Proof.
  split.
  - intros a b Hne H. apply Hne. unfold task_url in H.
    apply append_inv_head, append_slash_inj, str_int_inj in H. exact H.
  - intros d d' Hne H. apply Hne. unfold item_url in H.
    apply append_inv_head, append_slash_inj in H. exact H.
Qed.

Lemma item_urls_distinct_witness :
  task_url tasks 7 <> task_url tasks (-7)
  /\ item_url sites "example.com" <> item_url sites "example.org".
Proof.
  split.
  - apply (proj1 (item_urls_distinct tasks sites) 7 (-7)). discriminate.
  - apply (proj2 (item_urls_distinct tasks sites) "example.com" "example.org").
    discriminate.
Defined.

(** ** The missing-token failure, both ways *)

Lemma truthy_false_inv token :
  truthy token = false -> token = None \/ token = Some "".
Proof.
  destruct token as [[| c s] |]; cbn; intros H;
    [right; reflexivity | discriminate | left; reflexivity].
Qed.

Lemma conflict_is_not_no_token domain_name :
  Website.conflict_message domain_name <> Website.no_token_message.
Proof.
  unfold Website.conflict_message, Website.no_token_message, newline.
  cbn. discriminate.
Qed.

(** X12: against a server that answers every request, [Website.create]
    raises the missing-token [SanityException] if and only if [API_TOKEN]
    is absent from the environment or empty: any non-empty token passes
    the test, and the conflict exception is a different one. *)
Theorem no_token_failure_iff site domain_name command nuke w st :
  always_answers w ->
  (outcome (Website.create site domain_name command nuke) w st
   = inl (SanityException Website.no_token_message)
   <-> environ w "API_TOKEN" = None \/ environ w "API_TOKEN" = Some "").
Proof.
  intros Hans. unfold outcome.
  rewrite website_create_run, sanity_check_run. cbv zeta. split.
  - destruct (truthy (environ w "API_TOKEN")) eqn:Htok; cbn [negb];
      [| intros _; exact (truthy_false_inv _ Htok)].
    destruct nuke.
    + match goal with
      | |- context [server w ?h ?req] => destruct (Hans h req) as [r Hr]
      end.
      rewrite Hr. cbn [fst]. intros H.
      destruct (decoded_not_sanity _ _ H).
    + destruct (Hans (calls st) (probe_request site domain_name)) as [p Hp].
      rewrite Hp. destruct (status_code p =? 200).
      * cbn [fst]. intros H. exfalso.
        apply (conflict_is_not_no_token domain_name). congruence.
      * match goal with
        | |- context [server w ?h (post_request ?s ?d ?c)] =>
            destruct (Hans h (post_request s d c)) as [r Hr]
        end.
        rewrite Hr. cbn [fst]. intros H.
        destruct (decoded_not_sanity _ _ H).
  - intros Htok. rewrite (truthy_absent_or_empty _ Htok). reflexivity.
Qed.

Lemma no_token_failure_iff_witness :
  outcome (Website.create sites "example.com" "run" false)
    (probing_env (Some " ") resp_200 resp_201) fresh
  <> inl (SanityException Website.no_token_message).
Proof.
  intros H.
  assert (Hans : always_answers (probing_env (Some " ") resp_200 resp_201)).
  { intros history req. unfold probing_env. cbn [server].
    destruct (String.eqb (req_method req) "get"); eexists; reflexivity. }
  destruct (proj1 (no_token_failure_iff sites "example.com" "run" false
                     (probing_env (Some " ") resp_200 resp_201) fresh Hans) H)
    as [Hnone | Hempty]; discriminate.
Defined.
